(** * securitybot.tasker.tasker: tasks, their status levels and escalations

    A shallow embedding of [securitybot/tasker/tasker.py] together with the
    small part of Python's [datetime] module and of [pytz] that the file
    calls, followed by the properties of the embedded code.

    Layout: the definitions come first (Python values and exceptions, the
    [datetime] fragment, [pytz.utc.localize], then the classes [Escalation]
    and [Task]); the lemmas and theorems follow. *)

From Stdlib Require Import ZArith String List Bool Lia Permutation.
From Stdlib Require Import Numbers.DecimalString.
Import ListNotations.

Local Open Scope Z_scope.

(* ================================================================== *)
(** ** Python exceptions and fallible calls *)

Module Py.

(** The exception classes that the modelled calls can raise. *)
Inductive exception : Type :=
| AttributeError
| ValueError
| OverflowError.

(** A call either returns a value or raises. *)
Inductive result (A : Type) : Type :=
| Ok (a : A)
| Raise (e : exception).

Arguments Ok {A} a.
Arguments Raise {A} e.

Definition bind {A B : Type} (r : result A) (k : A -> result B) : result B :=
  match r with
  | Ok a => k a
  | Raise e => Raise e
  end.

Definition returns {A : Type} (r : result A) : bool :=
  match r with
  | Ok _ => true
  | Raise _ => false
  end.

End Py.

Import Py.

Notation "x <- c ;; k" := (Py.bind c (fun x => k))
  (at level 61, c at next level, right associativity).

(* ================================================================== *)
(** ** The fragment of [datetime] used by the tasker *)

Module Datetime.

(** Time zone objects.  [UTC] is [pytz.utc]; every other zone object is
    kept by name. *)
Inductive tz : Type :=
| UTC
| Zone (name : string).

(** The calendar fields of a [datetime.datetime]. *)
Record civil : Type := mkCivil
  { year : Z; month : Z; day : Z;
    hour : Z; minute : Z; second : Z; microsecond : Z }.

(** A [datetime.datetime]: naive when [tzinfo] is [None], zoned
    otherwise. *)
Record datetime : Type := mkDatetime
  { fields : civil;
    tzinfo : option tz }.

(** [dt.replace(tzinfo=z)]: same fields, new zone. *)
Definition replace_tzinfo (dt : datetime) (z : option tz) : datetime :=
  mkDatetime (fields dt) z.

(** [datetime.now(tz=pytz.utc)]: the clock reading, given in UTC calendar
    fields, carrying the UTC zone object. *)
Definition now_utc (clock : civil) : datetime :=
  mkDatetime clock (Some UTC).

(** A [datetime.timedelta] is stored as its three normalized attributes. *)
Record timedelta : Type := mkTimedelta
  { days : Z; seconds : Z; microseconds : Z }.

Definition MAX_DELTA_DAYS : Z := 999999999.
Definition SECONDS_PER_DAY : Z := 86400.
Definition US_PER_SECOND : Z := 1000000.

(** The representation invariant of [timedelta] objects:
    [0 <= seconds < 3600*24], [0 <= microseconds < 1000000] and
    [-999999999 <= days <= 999999999]. *)
Definition timedelta_ok (d : timedelta) : bool :=
  (- MAX_DELTA_DAYS <=? days d) && (days d <=? MAX_DELTA_DAYS)
  && (0 <=? seconds d) && (seconds d <? SECONDS_PER_DAY)
  && (0 <=? microseconds d) && (microseconds d <? US_PER_SECOND).

(** [timedelta(days=d, seconds=s, microseconds=us)] on integer arguments:
    the carries are taken with floor division and the day count is range
    checked. *)
Definition timedelta_new (d s us : Z) : result timedelta :=
  let s1 := s + us / US_PER_SECOND in
  let us' := us mod US_PER_SECOND in
  let d' := d + s1 / SECONDS_PER_DAY in
  let s' := s1 mod SECONDS_PER_DAY in
  if Z.abs d' >? MAX_DELTA_DAYS then Raise OverflowError
  else Ok (mkTimedelta d' s' us').

(** [a + b] on timedeltas. *)
Definition timedelta_add (a b : timedelta) : result timedelta :=
  timedelta_new (days a + days b) (seconds a + seconds b)
                (microseconds a + microseconds b).

(** The whole seconds in a duration, days included: the integer part
    (floor) of [total_seconds()]. *)
Definition whole_seconds (d : timedelta) : Z :=
  days d * SECONDS_PER_DAY + seconds d.

End Datetime.

Import Datetime.

(* ================================================================== *)
(** ** [pytz.utc.localize] *)

Module Pytz.

(** [pytz.utc.localize(dt)]:
    reading [dt.tzinfo] on [None] raises [AttributeError]; a datetime
    whose [tzinfo] is already set is refused with [ValueError]; a naive one
    is returned with [tzinfo] replaced by the UTC object. *)
Definition utc_localize (dt : option datetime) : result datetime :=
  match dt with
  | None => Raise AttributeError
  | Some d =>
      match tzinfo d with
      | Some _ => Raise ValueError
      | None => Ok (replace_tzinfo d (Some UTC))
      end
  end.

End Pytz.

Import Pytz.

(* ================================================================== *)
(** ** class Escalation *)

Record Escalation : Type := mkEscalation
  { ldap : string;
    delay_in_sec : Z;
    _notified_at : option datetime }.

(** [Escalation.__init__(ldap, delay_in_sec, notified_at=None)].  A datetime
    is always truthy, so the conditional only separates [None] from a
    datetime, which is then localized. *)
Definition Escalation_init (ldap : string) (delay_in_sec : Z)
    (notified_at : option datetime) : result Escalation :=
  match notified_at with
  | None => Ok (mkEscalation ldap delay_in_sec None)
  | Some d =>
      at_ <- utc_localize (Some d) ;;
      Ok (mkEscalation ldap delay_in_sec (Some at_))
  end.

(** [self._notified_at is not None] *)
Definition is_notified (e : Escalation) : bool :=
  match _notified_at e with
  | Some _ => true
  | None => false
  end.

(** [self._notified_at = datetime.now(tz=pytz.utc)]; the clock reading is an
    explicit argument. *)
Definition set_notified (clock : civil) (e : Escalation) : Escalation :=
  mkEscalation (ldap e) (delay_in_sec e) (Some (now_utc clock)).

(** [not self.is_notified() and elapsed_timedelta.seconds > self.delay_in_sec] *)
Definition should_notify (e : Escalation) (elapsed_timedelta : timedelta) : bool :=
  negb (is_notified e) && (seconds elapsed_timedelta >? delay_in_sec e).

(** The rule in the specification's words, to compare with [should_notify]:
    true iff not already notified and the elapsed time, at whole-second
    granularity, strictly exceeds the delay. *)
Definition spec_should_notify (e : Escalation) (elapsed : timedelta) : bool :=
  negb (is_notified e) && (whole_seconds elapsed >? delay_in_sec e).

(** *** Calls on one escalation object, in sequence *)

Inductive call : Type :=
| CallIsNotified
| CallShouldNotify (elapsed : timedelta)
| CallSetNotified (clock : civil).

Inductive retval : Type :=
| RetBool (b : bool)
| RetNone.

(** One method call: the object afterwards and the value returned. *)
Definition step (e : Escalation) (c : call) : Escalation * retval :=
  match c with
  | CallIsNotified => (e, RetBool (is_notified e))
  | CallShouldNotify elapsed => (e, RetBool (should_notify e elapsed))
  | CallSetNotified clock => (set_notified clock e, RetNone)
  end.

(** A sequence of calls: the object at the end and the values returned, in
    call order. *)
Fixpoint run (e : Escalation) (cs : list call) : Escalation * list retval :=
  match cs with
  | [] => (e, [])
  | c :: cs' =>
      let '(e1, r) := step e c in
      let '(e2, rs) := run e1 cs' in
      (e2, r :: rs)
  end.

Definition final (e : Escalation) (cs : list call) : Escalation :=
  fst (run e cs).

Definition returned (e : Escalation) (cs : list call) : list retval :=
  snd (run e cs).

(** How often [is_notified] turns from false to true along a run. *)
Fixpoint settings (e : Escalation) (cs : list call) : nat :=
  match cs with
  | [] => O
  | c :: cs' =>
      let e1 := fst (step e c) in
      ((if negb (is_notified e) && is_notified e1 then 1 else 0)
       + settings e1 cs')%nat
  end.

(** No call of the sequence is [set_notified]. *)
Definition never_sets (cs : list call) : bool :=
  forallb (fun c => match c with
                    | CallSetNotified _ => false
                    | _ => true
                    end) cs.

(** What a call may return once the escalation is notified: [is_notified]
    answers [True], [should_notify] answers [False]. *)
Definition notified_answer (c : call) (r : retval) : Prop :=
  match c with
  | CallIsNotified => r = RetBool true
  | CallShouldNotify _ => r = RetBool false
  | CallSetNotified _ => r = RetNone
  end.

(** The clock reading of the latest [set_notified] of a sequence of calls,
    if there is one. *)
Fixpoint last_set (cs : list call) : option civil :=
  match cs with
  | [] => None
  | c :: cs' =>
      match last_set cs' with
      | Some k => Some k
      | None =>
          match c with
          | CallSetNotified k => Some k
          | _ => None
          end
      end
  end.

(** The timestamp, when there is one, carries the UTC zone. *)
Definition notified_at_utc (e : Escalation) : bool :=
  match _notified_at e with
  | None => true
  | Some d =>
      match tzinfo d with
      | Some UTC => true
      | _ => false
      end
  end.

(* ================================================================== *)
(** ** Task status levels *)

(** Modelled from the spec: [securitybot.util.enum], which builds
    [STATUS_LEVELS], is not part of this file.  The specification gives it as
    three distinguishable symbolic values compared by equality, of the type
    the signature comment of [Task.__init__] gives for [status] (an int). *)
Class StatusLevels : Type := mkStatusLevels
  { OPEN : Z;
    INPROGRESS : Z;
    VERIFICATION : Z }.

(** The three values are distinguishable. *)
Definition distinguishable (L : StatusLevels) : Prop :=
  @OPEN L <> @INPROGRESS L /\
  @OPEN L <> @VERIFICATION L /\
  @INPROGRESS L <> @VERIFICATION L.

(** The values given by the usual positional numbering of the names
    [('OPEN', 'INPROGRESS', 'VERIFICATION')]. *)
Definition positional_levels : StatusLevels :=
  mkStatusLevels 0 1 2.

(* ================================================================== *)
(** ** class Task *)

Record Task : Type := mkTask
  { title : string;
    username : string;
    reason : string;
    description : string;
    url : string;
    performed : bool;
    comment : string;
    authenticated : bool;
    status : Z;
    event_time : option datetime;
    escalation : option Escalation }.

(** [Task.__init__], as run for a concrete subclass.  [event_time] and
    [escalation] default to [None]; the only statement that can raise is the
    localization of [event_time]. *)
Definition Task_init (title username reason description url : string)
    (performed : bool) (comment : string) (authenticated : bool) (status : Z)
    (event_time : option datetime) (escalation : option Escalation)
    : result Task :=
  et <- utc_localize event_time ;;
  Ok (mkTask title username reason description url performed comment
             authenticated status (Some et) escalation).

Definition with_status (t : Task) (s : Z) : Task :=
  mkTask (title t) (username t) (reason t) (description t) (url t)
         (performed t) (comment t) (authenticated t) s
         (event_time t) (escalation t).

Section StatusMethods.

Context {STATUS_LEVELS : StatusLevels}.

(** [self.status == STATUS_LEVELS.OPEN] *)
Definition is_open (t : Task) : bool := status t =? OPEN.

(** [self.status == STATUS_LEVELS.INPROGRESS] *)
Definition is_in_progress (t : Task) : bool := status t =? INPROGRESS.

(** [self.status == STATUS_LEVELS.VERIFICATION] *)
Definition is_verifying (t : Task) : bool := status t =? VERIFICATION.

(** Modelled from the spec: [set_open] is abstract here (its body is
    [pass]) and its implementations live in the concrete taskers, which
    are not part of this file.  The specification: "transitions [status]
    to OPEN". *)
Definition set_open (t : Task) : Task := with_status t OPEN.

(** Modelled from the spec: abstract here, as [set_open]; "transitions
    [status] to IN_PROGRESS". *)
Definition set_in_progress (t : Task) : Task := with_status t INPROGRESS.

(** Modelled from the spec: abstract here, as [set_open]; "transitions
    [status] to VERIFICATION". *)
Definition set_verifying (t : Task) : Task := with_status t VERIFICATION.

End StatusMethods.

(** How many of three answers are [True]. *)
Definition count_true (a b c : bool) : nat :=
  ((if a then 1 else 0) + (if b then 1 else 0) + (if c then 1 else 0))%nat.

(* ================================================================== *)
(** ** String representations *)

(** The Python values stored in the attributes of tasks and escalations. *)
Inductive pyval : Type :=
| PyNone
| PyBool (b : bool)
| PyInt (n : Z)
| PyStr (s : string)
| PyDatetime (d : datetime)
| PyEscalation (e : Escalation).

Definition of_datetime (o : option datetime) : pyval :=
  match o with
  | Some d => PyDatetime d
  | None => PyNone
  end.

Definition of_escalation (o : option Escalation) : pyval :=
  match o with
  | Some e => PyEscalation e
  | None => PyNone
  end.

(** [sep.join(parts)] *)
Fixpoint join (sep : string) (parts : list string) : string :=
  match parts with
  | [] => EmptyString
  | [p] => p
  | p :: rest => (p ++ sep ++ join sep rest)%string
  end.

(** [s] occurs in [text] as a contiguous piece. *)
Definition occurs_in (s text : string) : Prop :=
  exists before after : string, text = (before ++ s ++ after)%string.

Section Repr.

(** [repr] on the built-in values ([None], booleans, ints, strings,
    datetimes) belongs to the interpreter; the dump only calls it. *)
Variable builtin_repr : pyval -> string.

(** One [key: value] entry of a dict's representation. *)
Definition entry (r : pyval -> string) (kv : string * pyval) : string :=
  (r (PyStr (fst kv)) ++ ": " ++ r (snd kv))%string.

(** [str(d)] for a dict [d] with string keys, its items taken in
    iteration order. *)
Definition dict_str (r : pyval -> string) (items : list (string * pyval))
    : string :=
  ("{" ++ join ", " (map (entry r) items) ++ "}")%string.

(** [self.__dict__] of an escalation. *)
Definition Escalation_dict (e : Escalation) : list (string * pyval) :=
  [ ("ldap"%string, PyStr (ldap e));
    ("delay_in_sec"%string, PyInt (delay_in_sec e));
    ("_notified_at"%string, of_datetime (_notified_at e)) ].

(** [Escalation.__repr__]: [str(self.__dict__)] *)
Definition Escalation_repr (e : Escalation) : string :=
  dict_str builtin_repr (Escalation_dict e).

(** [repr(v)]: an escalation answers with its own [__repr__]. *)
Definition repr (v : pyval) : string :=
  match v with
  | PyEscalation e => Escalation_repr e
  | _ => builtin_repr v
  end.

(** [self.__dict__] of a task once [__init__] has returned, in the order
    of the assignments. *)
Definition Task_dict (t : Task) : list (string * pyval) :=
  [ ("title"%string, PyStr (title t));
    ("username"%string, PyStr (username t));
    ("reason"%string, PyStr (reason t));
    ("description"%string, PyStr (description t));
    ("url"%string, PyStr (url t));
    ("performed"%string, PyBool (performed t));
    ("comment"%string, PyStr (comment t));
    ("authenticated"%string, PyBool (authenticated t));
    ("status"%string, PyInt (status t));
    ("event_time"%string, of_datetime (event_time t));
    ("escalation"%string, of_escalation (escalation t)) ].

(** [Task.__str__]: [str(self.__dict__)] *)
Definition Task_str (t : Task) : string :=
  dict_str repr (Task_dict t).

End Repr.

(** The attributes that [__init__] sets, with the values given at
    construction: the arguments as passed, and [event_time] localized. *)
Definition attributes_at_construction
    (title username reason description url : string)
    (performed : bool) (comment : string) (authenticated : bool) (status : Z)
    (event_time : datetime) (escalation : option Escalation)
    : list (string * pyval) :=
  [ ("title"%string, PyStr title);
    ("username"%string, PyStr username);
    ("reason"%string, PyStr reason);
    ("description"%string, PyStr description);
    ("url"%string, PyStr url);
    ("performed"%string, PyBool performed);
    ("comment"%string, PyStr comment);
    ("authenticated"%string, PyBool authenticated);
    ("status"%string, PyInt status);
    ("event_time"%string, PyDatetime (replace_tzinfo event_time (Some UTC)));
    ("escalation"%string, of_escalation escalation) ].

(* ================================================================== *)
(** ** Sample values *)

Module Sample.

Definition decimal (n : Z) : string :=
  NilZero.string_of_int (Z.to_int n).

Definition tz_text (z : tz) : string :=
  match z with
  | UTC => "<UTC>"
  | Zone name => ("<" ++ name ++ ">")%string
  end.

(** The calendar fields a datetime is shown with: a zero microsecond is
    left out, and then a zero second too. *)
Definition shown_fields (f : civil) : list Z :=
  [year f; month f; day f; hour f; minute f]
  ++ (if microsecond f =? 0
      then (if second f =? 0 then [] else [second f])
      else [second f; microsecond f]).

(** A renderer to run the dumps with, in the style of the interpreter's
    [repr]. *)
Definition show (v : pyval) : string :=
  match v with
  | PyNone => "None"
  | PyBool true => "True"
  | PyBool false => "False"
  | PyInt n => decimal n
  | PyStr s => ("'" ++ s ++ "'")%string
  | PyDatetime d =>
      let f := fields d in
      ("datetime.datetime("
         ++ join ", " (map decimal (shown_fields f))
         ++ match tzinfo d with
            | Some z => ", tzinfo=" ++ tz_text z
            | None => ""
            end
         ++ ")")%string
  | PyEscalation _ => "<Escalation>"
  end.

Definition new_year_2017 : datetime :=
  mkDatetime (mkCivil 2017 1 1 0 0 0 0) None.

Definition noon : civil := mkCivil 2017 1 1 12 0 0 0.

Definition bob (delay : Z) : Escalation := mkEscalation "bob" delay None.

Definition one_day : timedelta := mkTimedelta 1 0 0.
Definition two_days : timedelta := mkTimedelta 2 0 0.
Definition minus_one_second : timedelta := mkTimedelta (-1) 86399 0.
Definition zero_elapsed : timedelta := mkTimedelta 0 0 0.
Definition ten_seconds : timedelta := mkTimedelta 0 10 0.

Definition alert : Task :=
  mkTask "Login" "alice" "new device" "Login from a new device"
         "https://alerts.example/1" false "" false 0
         (Some (replace_tzinfo new_year_2017 (Some UTC)))
         (Some (bob 300)).

End Sample.

(* ================================================================== *)
(** * Properties *)

(** ** Timedeltas *)

Lemma timedelta_ok_bounds (d : timedelta) :
  timedelta_ok d = true ->
  - MAX_DELTA_DAYS <= days d <= MAX_DELTA_DAYS /\
  0 <= seconds d < SECONDS_PER_DAY /\
  0 <= microseconds d < US_PER_SECOND.
Proof.
  unfold timedelta_ok. intro H.
  repeat (apply andb_prop in H; destruct H as [H ?]).
  repeat match goal with
         | E : (_ <=? _) = true |- _ => apply Z.leb_le in E
         | E : (_ <? _) = true |- _ => apply Z.ltb_lt in E
         end.
  lia.
Qed.

(** The constructor only hands out normalized timedeltas. *)
Lemma timedelta_new_ok (d s us : Z) (t : timedelta) :
  timedelta_new d s us = Ok t -> timedelta_ok t = true.
Proof.
  unfold timedelta_new, timedelta_ok.
  destruct (Z.abs _ >? MAX_DELTA_DAYS) eqn:E; [discriminate|].
  intro H. injection H as <-. cbn [days seconds microseconds].
  assert (Hs := Z.mod_pos_bound (s + us / US_PER_SECOND) SECONDS_PER_DAY eq_refl).
  assert (Hu := Z.mod_pos_bound us US_PER_SECOND eq_refl).
  rewrite Z.gtb_ltb in E. apply Z.ltb_ge in E.
  repeat (apply andb_true_intro; split);
    first [apply Z.leb_le | apply Z.ltb_lt]; lia.
Qed.

(** [timedelta(days=k)] has no seconds and no microseconds. *)
Lemma timedelta_new_days (k : Z) (t : timedelta) :
  timedelta_new k 0 0 = Ok t -> t = mkTimedelta k 0 0.
Proof.
  unfold timedelta_new. cbn [Z.add Z.div Z.modulo].
  change (0 / US_PER_SECOND) with 0. change (0 mod US_PER_SECOND) with 0.
  change (0 + 0) with 0.
  change (0 / SECONDS_PER_DAY) with 0. change (0 mod SECONDS_PER_DAY) with 0.
  rewrite Z.add_0_r.
  destruct (Z.abs k >? MAX_DELTA_DAYS); [discriminate|].
  intro H. now injection H as <-.
Qed.

(** Adding whole days moves the day count and nothing else. *)
Lemma timedelta_add_days (e : timedelta) (k : Z) (r : timedelta) :
  timedelta_ok e = true ->
  timedelta_add e (mkTimedelta k 0 0) = Ok r ->
  r = mkTimedelta (days e + k) (seconds e) (microseconds e).
Proof.
  intros Hok. apply timedelta_ok_bounds in Hok as (_ & Hs & Hu).
  unfold timedelta_add, timedelta_new. cbn [days seconds microseconds].
  rewrite !Z.add_0_r.
  rewrite (Z.div_small (microseconds e)), (Z.mod_small (microseconds e)) by lia.
  rewrite Z.add_0_r.
  rewrite (Z.div_small (seconds e)), (Z.mod_small (seconds e)) by lia.
  rewrite Z.add_0_r.
  destruct (Z.abs _ >? MAX_DELTA_DAYS); [discriminate|].
  intro H. now injection H as <-.
Qed.

(* ================================================================== *)
(** ** Escalation: the notification rule *)

Lemma should_notify_notified (e : Escalation) (elapsed : timedelta) :
  is_notified e = true -> should_notify e elapsed = false.
Proof. unfold should_notify. now intros ->. Qed.

Lemma should_notify_unnotified (e : Escalation) (elapsed : timedelta) :
  is_notified e = false ->
  should_notify e elapsed = (seconds elapsed >? delay_in_sec e).
Proof. unfold should_notify. now intros ->. Qed.

(** Within the first day the [seconds] attribute is the whole elapsed time,
    and there the code follows the specified rule. *)
Lemma should_notify_first_day (e : Escalation) (elapsed : timedelta) :
  days elapsed = 0 ->
  should_notify e elapsed = spec_should_notify e elapsed.
Proof.
  unfold should_notify, spec_should_notify, whole_seconds.
  intros ->. now rewrite Z.mul_0_l, Z.add_0_l.
Qed.

(** The boundary table for delays 0, 1 and 3600 at [D-1], [D] and [D+1]
    seconds, as the code computes it.  The first entry is the odd one:
    [timedelta(seconds=-1)] is stored as [-1 day, 86399 s]. *)
Example should_notify_boundaries :
  map (fun D =>
         map (fun s => match timedelta_new 0 s 0 with
                       | Ok t => Some (should_notify (Sample.bob D) t)
                       | Raise _ => None
                       end)
             [D - 1; D; D + 1])
      [0; 1; 3600]
  = [ [Some true; Some false; Some true];
      [Some false; Some false; Some true];
      [Some false; Some false; Some true] ].
Proof. reflexivity. Qed.

(** C1.  [should_notify] compares the [seconds] attribute of the elapsed
    time, which leaves the days out, with the delay.  For an unnotified
    escalation with a delay of 3600 s and an elapsed time of one day the
    elapsed time exceeds the delay, yet the answer is [False]; with a delay
    of 0 s and an elapsed time of minus one second the elapsed time does not
    exceed the delay, yet the answer is [True]. *)
Theorem should_notify_drops_days :
  (Escalation_init "bob" 3600 None = Ok (Sample.bob 3600) /\
   timedelta_new 1 0 0 = Ok Sample.one_day /\
   whole_seconds Sample.one_day = 86400 /\
   should_notify (Sample.bob 3600) Sample.one_day = false /\
   spec_should_notify (Sample.bob 3600) Sample.one_day = true) /\
  (Escalation_init "bob" 0 None = Ok (Sample.bob 0) /\
   timedelta_new 0 (-1) 0 = Ok Sample.minus_one_second /\
   whole_seconds Sample.minus_one_second = -1 /\
   should_notify (Sample.bob 0) Sample.minus_one_second = true /\
   spec_should_notify (Sample.bob 0) Sample.minus_one_second = false).
Proof. repeat split. Qed.

(** C3.  For a normalized elapsed time [elapsed] and any whole number of
    days [k] (as long as [timedelta(days=k)] and the sum exist),
    [should_notify(elapsed + timedelta(days=k))] equals
    [should_notify(elapsed)]; so an elapsed time of exactly [n] days, two
    for instance, gives [False] for every non-negative delay. *)
Theorem should_notify_ignores_days
    (e : Escalation) (elapsed kdays shifted : timedelta) (k : Z) :
  timedelta_ok elapsed = true ->
  timedelta_new k 0 0 = Ok kdays ->
  timedelta_add elapsed kdays = Ok shifted ->
  should_notify e shifted = should_notify e elapsed /\
  (0 <= delay_in_sec e -> should_notify e kdays = false).
Proof.
  intros Hok Hk Hadd.
  apply timedelta_new_days in Hk. subst kdays.
  apply timedelta_add_days in Hadd; [|exact Hok]. subst shifted.
  split; [reflexivity|].
  intro Hd. unfold should_notify. cbn [seconds].
  replace (0 >? delay_in_sec e) with false; [apply andb_false_r|].
  symmetry. rewrite Z.gtb_ltb. apply Z.ltb_ge. exact Hd.
Qed.

Lemma should_notify_ignores_days_witness :
  should_notify (Sample.bob 3600) (mkTimedelta 2 10 0)
  = should_notify (Sample.bob 3600) Sample.ten_seconds /\
  should_notify (Sample.bob 3600) Sample.two_days = false.
Proof.
  destruct (should_notify_ignores_days (Sample.bob 3600) Sample.ten_seconds
              Sample.two_days (mkTimedelta 2 10 0) 2
              eq_refl eq_refl eq_refl) as [H1 H2].
  split; [exact H1 | apply H2; cbn; lia].
Defined.

(* ================================================================== *)
(** ** Escalation: sequences of calls *)

Lemma run_cons (e : Escalation) (c : call) (cs : list call) :
  run e (c :: cs)
  = (final (fst (step e c)) cs, snd (step e c) :: returned (fst (step e c)) cs).
Proof.
  unfold final, returned. cbn [run].
  destruct (step e c) as [e1 r]. cbn [fst snd].
  now destruct (run e1 cs).
Qed.

Lemma final_cons (e : Escalation) (c : call) (cs : list call) :
  final e (c :: cs) = final (fst (step e c)) cs.
Proof. unfold final at 1. now rewrite run_cons. Qed.

Lemma returned_cons (e : Escalation) (c : call) (cs : list call) :
  returned e (c :: cs) = snd (step e c) :: returned (fst (step e c)) cs.
Proof. unfold returned at 1. now rewrite run_cons. Qed.

Lemma final_app (e : Escalation) (cs1 cs2 : list call) :
  final e (cs1 ++ cs2) = final (final e cs1) cs2.
Proof.
  revert e. induction cs1 as [|c cs1 IH]; intro e; [reflexivity|].
  rewrite <- app_comm_cons, !final_cons. apply IH.
Qed.

(** One call never takes the notification back. *)
Lemma step_keeps_notified (e : Escalation) (c : call) :
  is_notified e = true -> is_notified (fst (step e c)) = true.
Proof. destruct c; cbn; auto. Qed.

(** Only [set_notified] changes the object. *)
Lemma step_pure (e : Escalation) (c : call) :
  never_sets [c] = true -> fst (step e c) = e.
Proof. destruct c; cbn; [reflexivity | reflexivity | discriminate]. Qed.

Lemma step_notified_answer (e : Escalation) (c : call) :
  is_notified e = true -> notified_answer c (snd (step e c)).
Proof.
  intro H. destruct c; cbn.
  - now rewrite H.
  - now rewrite should_notify_notified.
  - reflexivity.
Qed.

Lemma final_keeps_notified (cs : list call) (e : Escalation) :
  is_notified e = true -> is_notified (final e cs) = true.
Proof.
  revert e. induction cs as [|c cs IH]; intros e H; [exact H|].
  rewrite final_cons. apply IH, step_keeps_notified, H.
Qed.

Lemma final_never_sets (cs : list call) (e : Escalation) :
  never_sets cs = true -> final e cs = e.
Proof.
  revert e. induction cs as [|c cs IH]; intros e H; [reflexivity|].
  cbn [never_sets forallb] in H. apply andb_prop in H as [Hc Hcs].
  rewrite final_cons, step_pure; [now apply IH|].
  cbn [never_sets forallb]. now rewrite Hc.
Qed.

Lemma returned_notified (cs : list call) (e : Escalation) :
  is_notified e = true -> Forall2 notified_answer cs (returned e cs).
Proof.
  revert e. induction cs as [|c cs IH]; intros e H; [constructor|].
  rewrite returned_cons. constructor.
  - now apply step_notified_answer.
  - apply IH, step_keeps_notified, H.
Qed.

Lemma settings_notified (cs : list call) (e : Escalation) :
  is_notified e = true -> settings e cs = O.
Proof.
  revert e. induction cs as [|c cs IH]; intros e H; [reflexivity|].
  cbn [settings]. rewrite H. cbn [negb andb].
  now rewrite IH by (apply step_keeps_notified, H).
Qed.

Lemma settings_app (cs1 cs2 : list call) (e : Escalation) :
  settings e (cs1 ++ cs2) = (settings e cs1 + settings (final e cs1) cs2)%nat.
Proof.
  revert e. induction cs1 as [|c cs1 IH]; intro e; [reflexivity|].
  rewrite <- app_comm_cons, final_cons. cbn [settings].
  rewrite IH. apply Nat.add_assoc.
Qed.

(** From unset to set there is one step, taken when the run ends set. *)
Lemma settings_once (cs : list call) (e : Escalation) :
  is_notified e = false ->
  is_notified (final e cs) = true ->
  settings e cs = 1%nat.
Proof.
  revert e. induction cs as [|c cs IH]; intros e H0 H1.
  - cbn in H1. congruence.
  - rewrite final_cons in H1. cbn [settings]. rewrite H0. cbn [negb andb].
    destruct (is_notified (fst (step e c))) eqn:E.
    + now rewrite settings_notified.
    + now rewrite IH.
Qed.

(** C5.  Once [set_notified()] has run, [is_notified()] is [True] and
    stays so over any further calls, and every later
    [should_notify(elapsed)] answers [False], whatever the elapsed time and
    the delay. *)
Theorem set_notified_is_permanent
    (e : Escalation) (clock : civil) (cs : list call) (elapsed : timedelta) :
  is_notified (set_notified clock e) = true /\
  is_notified (final (set_notified clock e) cs) = true /\
  should_notify (final (set_notified clock e) cs) elapsed = false /\
  Forall2 notified_answer cs (returned (set_notified clock e) cs).
Proof.
  assert (H : is_notified (set_notified clock e) = true) by reflexivity.
  repeat split.
  - now apply final_keeps_notified.
  - now apply should_notify_notified, final_keeps_notified.
  - now apply returned_notified.
Qed.

(** The scenario of the specification: delay 60; at 10 s [False]; notify;
    at 120 s still [False]. *)
Example notified_scenario :
  returned (Sample.bob 60)
    [CallShouldNotify Sample.ten_seconds; CallSetNotified Sample.noon;
     CallShouldNotify (mkTimedelta 0 120 0); CallIsNotified]
  = [RetBool false; RetNone; RetBool false; RetBool true].
Proof. reflexivity. Qed.

(** C8.  Over any sequence of [is_notified], [should_notify] and
    [set_notified] calls: once [is_notified()] is [True] it is [True] after
    every further call, the timestamp does not go from unset to set again,
    and an escalation that began unset went from unset to set exactly
    once. *)
Theorem notified_is_monotone (e : Escalation) (before after : list call) :
  is_notified (final e before) = true ->
  is_notified (final e (before ++ after)) = true /\
  settings (final e before) after = O /\
  (is_notified e = false -> settings e (before ++ after) = 1%nat).
Proof.
  intro H. repeat split.
  - rewrite final_app. now apply final_keeps_notified.
  - now apply settings_notified.
  - intro H0. apply settings_once; [exact H0|].
    rewrite final_app. now apply final_keeps_notified.
Qed.

Lemma notified_is_monotone_witness :
  is_notified
    (final (Sample.bob 60)
       ([CallShouldNotify Sample.ten_seconds; CallSetNotified Sample.noon]
        ++ [CallShouldNotify Sample.one_day; CallSetNotified Sample.noon;
            CallIsNotified])) = true /\
  settings (Sample.bob 60)
       ([CallShouldNotify Sample.ten_seconds; CallSetNotified Sample.noon]
        ++ [CallShouldNotify Sample.one_day; CallSetNotified Sample.noon;
            CallIsNotified]) = 1%nat.
Proof.
  destruct (notified_is_monotone (Sample.bob 60)
              [CallShouldNotify Sample.ten_seconds; CallSetNotified Sample.noon]
              [CallShouldNotify Sample.one_day; CallSetNotified Sample.noon;
               CallIsNotified] eq_refl) as (H1 & _ & H3).
  split; [exact H1 | apply H3; reflexivity].
Defined.

(* ================================================================== *)
(** ** Escalation: delays of zero and below *)

(** The constructor takes any delay; without a [notified_at] it cannot
    raise. *)
Lemma Escalation_init_unnotified (name : string) (delay : Z) :
  Escalation_init name delay None = Ok (mkEscalation name delay None).
Proof. reflexivity. Qed.

(** A delay of zero is accepted, yet the escalation is not due at once: at
    an elapsed time of zero [should_notify] answers [False], since [0 > 0]
    does not hold. *)
Lemma zero_delay_not_immediate :
  Escalation_init "bob" 0 None = Ok (Sample.bob 0) /\
  is_notified (Sample.bob 0) = false /\
  timedelta_new 0 0 0 = Ok Sample.zero_elapsed /\
  should_notify (Sample.bob 0) Sample.zero_elapsed = false.
Proof. repeat split. Qed.

(** C6, as amended.  A delay of zero or below is accepted by the
    constructor.  With a negative delay the unnotified escalation answers
    [True] to [should_notify] for every elapsed time, also after any calls
    other than [set_notified].  With a delay of zero and an elapsed time
    of at least zero and under one day ([0 <= elapsed < 1 day]) it answers
    [True] exactly from one whole second on, so [False] at zero. *)
Theorem nonpositive_delay_accepted
    (name : string) (delay : Z) (cs : list call) (elapsed : timedelta) :
  delay <= 0 ->
  timedelta_ok elapsed = true ->
  never_sets cs = true ->
  exists e : Escalation,
    Escalation_init name delay None = Ok e /\
    is_notified e = false /\
    (delay < 0 -> should_notify (final e cs) elapsed = true) /\
    (delay = 0 -> 0 <= whole_seconds elapsed < SECONDS_PER_DAY ->
     should_notify (final e cs) elapsed = (1 <=? whole_seconds elapsed)).
Proof.
  intros Hd Hok Hcs. exists (mkEscalation name delay None).
  apply timedelta_ok_bounds in Hok as (_ & Hs & _).
  rewrite (final_never_sets cs) by exact Hcs.
  repeat split.
  - intro Hneg. rewrite should_notify_unnotified by reflexivity.
    cbn [delay_in_sec]. rewrite Z.gtb_ltb. apply Z.ltb_lt. lia.
  - intros -> Hrange. rewrite should_notify_unnotified by reflexivity.
    cbn [delay_in_sec].
    assert (Hday : days elapsed = 0).
    { unfold whole_seconds, SECONDS_PER_DAY in *. lia. }
    unfold whole_seconds. rewrite Hday, Z.mul_0_l, Z.add_0_l.
    rewrite Z.gtb_ltb.
    destruct (Z.ltb_spec 0 (seconds elapsed)), (Z.leb_spec 1 (seconds elapsed));
      reflexivity || lia.
Qed.

Lemma nonpositive_delay_accepted_witness :
  (exists e : Escalation,
      Escalation_init "bob" (-5) None = Ok e /\
      should_notify
        (final e [CallIsNotified; CallShouldNotify Sample.one_day])
        Sample.zero_elapsed = true) /\
  (exists e : Escalation,
      Escalation_init "bob" 0 None = Ok e /\
      should_notify (final e []) Sample.zero_elapsed = false /\
      should_notify (final e []) Sample.ten_seconds = true).
Proof.
  split.
  - destruct (nonpositive_delay_accepted "bob" (-5)
                [CallIsNotified; CallShouldNotify Sample.one_day]
                Sample.zero_elapsed ltac:(lia) eq_refl eq_refl)
      as (e & Hinit & _ & Hneg & _).
    exists e. split; [exact Hinit | apply Hneg; lia].
  - destruct (nonpositive_delay_accepted "bob" 0 [] Sample.zero_elapsed
                ltac:(lia) eq_refl eq_refl) as (e & Hinit & _ & _ & Hzero).
    destruct (nonpositive_delay_accepted "bob" 0 [] Sample.ten_seconds
                ltac:(lia) eq_refl eq_refl) as (e' & Hinit' & _ & _ & Hzero').
    exists e. repeat split.
    + exact Hinit.
    + rewrite Hzero; [reflexivity | reflexivity |].
      unfold whole_seconds, SECONDS_PER_DAY. cbn. lia.
    + assert (e' = e) as <- by congruence.
      rewrite Hzero'; [reflexivity | reflexivity |].
      unfold whole_seconds, SECONDS_PER_DAY. cbn. lia.
Defined.

(* ================================================================== *)
(** ** Task: construction *)

Lemma utc_localize_naive (d : datetime) :
  tzinfo d = None -> utc_localize (Some d) = Ok (replace_tzinfo d (Some UTC)).
Proof. unfold utc_localize. now intros ->. Qed.

Lemma utc_localize_zoned (d : datetime) (z : tz) :
  tzinfo d = Some z -> utc_localize (Some d) = Raise ValueError.
Proof. unfold utc_localize. now intros ->. Qed.

(** What a successful construction has been given and what it has stored. *)
Lemma Task_init_inv
    (title username reason description url : string)
    (performed : bool) (comment : string) (authenticated : bool) (status : Z)
    (event_time : option datetime) (escalation : option Escalation) (t : Task) :
  Task_init title username reason description url performed comment
            authenticated status event_time escalation = Ok t ->
  exists d : datetime,
    event_time = Some d /\ tzinfo d = None /\
    t = mkTask title username reason description url performed comment
               authenticated status
               (Some (replace_tzinfo d (Some UTC))) escalation.
Proof.
  unfold Task_init, utc_localize, bind.
  destruct event_time as [d|]; [|discriminate].
  destruct (tzinfo d) eqn:E; [discriminate|].
  intro H. injection H as <-. now exists d.
Qed.

(** C2.  Without an [event_time] (the default [None]) construction raises;
    and every task that construction returns has its [event_time] set: to
    the given naive time, made UTC. *)
Theorem Task_init_requires_event_time
    (title username reason description url : string)
    (performed : bool) (comment : string) (authenticated : bool) (status : Z)
    (escalation : option Escalation) :
  Task_init title username reason description url performed comment
            authenticated status None escalation = Raise AttributeError /\
  forall (given : option datetime) (t : Task),
    Task_init title username reason description url performed comment
              authenticated status given escalation = Ok t ->
    exists d : datetime,
      given = Some d /\
      event_time t = Some (replace_tzinfo d (Some UTC)).
Proof.
  split; [reflexivity|].
  intros given t H. apply Task_init_inv in H as (d & -> & _ & ->).
  now exists d.
Qed.

Lemma Task_init_requires_event_time_witness :
  Task_init "Login" "alice" "new device" "Login from a new device"
            "https://alerts.example/1" false "" false 0 None None
  = Raise AttributeError /\
  event_time Sample.alert
  = Some (replace_tzinfo Sample.new_year_2017 (Some UTC)).
Proof.
  destruct (Task_init_requires_event_time "Login" "alice" "new device"
              "Login from a new device" "https://alerts.example/1"
              false "" false 0 (Some (Sample.bob 300))) as [_ Hset].
  split; [reflexivity|].
  destruct (Hset (Some Sample.new_year_2017) Sample.alert eq_refl)
    as (d & Hd & Ht).
  injection Hd as <-. exact Ht.
Defined.

(** C10.  An [event_time] whose [tzinfo] is already set makes construction
    raise ([ValueError], from the localization). *)
Theorem Task_init_rejects_zoned
    (title username reason description url : string)
    (performed : bool) (comment : string) (authenticated : bool) (status : Z)
    (t : datetime) (z : tz) (escalation : option Escalation) :
  tzinfo t = Some z ->
  Task_init title username reason description url performed comment
            authenticated status (Some t) escalation = Raise ValueError.
Proof.
  intro H. unfold Task_init. now rewrite (utc_localize_zoned t z H).
Qed.

Lemma Task_init_rejects_zoned_witness :
  Task_init "Login" "alice" "new device" "Login from a new device"
            "https://alerts.example/1" false "" false 0
            (Some (now_utc Sample.noon)) None
  = Raise ValueError.
Proof.
  apply (Task_init_rejects_zoned "Login" "alice" "new device"
           "Login from a new device" "https://alerts.example/1"
           false "" false 0 (now_utc Sample.noon) UTC None).
  reflexivity.
Defined.

(* ================================================================== *)
(** ** Task: status *)

Section StatusProperties.

Context {STATUS_LEVELS : StatusLevels}.

Lemma status_with_status (t : Task) (s : Z) : status (with_status t s) = s.
Proof. reflexivity. Qed.

(** Whatever the status, no two of the predicates hold together. *)
Lemma status_predicates_exclusive (t : Task) :
  distinguishable STATUS_LEVELS ->
  (count_true (is_open t) (is_in_progress t) (is_verifying t) <= 1)%nat.
Proof.
  unfold distinguishable, is_open, is_in_progress, is_verifying, count_true.
  intros (H1 & H2 & H3).
  destruct (Z.eqb_spec (status t) OPEN),
           (Z.eqb_spec (status t) INPROGRESS),
           (Z.eqb_spec (status t) VERIFICATION);
    cbn; solve [lia | congruence].
Qed.

End StatusProperties.

(** C4.  For a task whose status is one of the three levels, exactly one of
    [is_open()], [is_in_progress()], [is_verifying()] is [True]. *)
Theorem status_predicates_partition (L : StatusLevels) (t : Task) :
  distinguishable L ->
  status t = OPEN \/ status t = INPROGRESS \/ status t = VERIFICATION ->
  count_true (is_open t) (is_in_progress t) (is_verifying t) = 1%nat.
Proof.
  unfold distinguishable, is_open, is_in_progress, is_verifying, count_true.
  intros (H1 & H2 & H3) Hs.
  destruct (Z.eqb_spec (status t) OPEN),
           (Z.eqb_spec (status t) INPROGRESS),
           (Z.eqb_spec (status t) VERIFICATION);
    cbn; try reflexivity; try congruence.
  destruct Hs as [Hs | [Hs | Hs]]; congruence.
Qed.

Lemma status_predicates_partition_witness :
  count_true (@is_open positional_levels Sample.alert)
             (@is_in_progress positional_levels Sample.alert)
             (@is_verifying positional_levels Sample.alert) = 1%nat.
Proof.
  apply (status_predicates_partition positional_levels Sample.alert).
  - unfold distinguishable. cbn. repeat split; discriminate.
  - left. reflexivity.
Defined.

(** C7.  After [set_open()], [is_open()] is [True]; likewise for
    [set_in_progress()] with [is_in_progress()] and [set_verifying()] with
    [is_verifying()]: each transition leaves the status at its level. *)
Theorem transitions_reach_status (L : StatusLevels) (t : Task) :
  (status (set_open t) = OPEN /\ is_open (set_open t) = true) /\
  (status (set_in_progress t) = INPROGRESS /\
   is_in_progress (set_in_progress t) = true) /\
  (status (set_verifying t) = VERIFICATION /\
   is_verifying (set_verifying t) = true).
Proof.
  unfold is_open, is_in_progress, is_verifying,
    set_open, set_in_progress, set_verifying.
  rewrite !status_with_status, !Z.eqb_refl. repeat split.
Qed.

(* ================================================================== *)
(** ** Task: the string representation *)

Lemma str_app_nil_r (s : string) : (s ++ "")%string = s.
Proof. induction s as [|a s IH]; cbn; [reflexivity | now rewrite IH]. Qed.

Lemma str_app_assoc (a b c : string) :
  ((a ++ b) ++ c)%string = (a ++ b ++ c)%string.
Proof. induction a as [|x a IH]; cbn; [reflexivity | now rewrite IH]. Qed.

Lemma occurs_in_here (s before after : string) :
  occurs_in s (before ++ s ++ after)%string.
Proof. now exists before, after. Qed.

Lemma occurs_in_self (s : string) : occurs_in s s.
Proof. exists EmptyString, EmptyString. cbn. now rewrite str_app_nil_r. Qed.

(** A piece of a text is a piece of any text around it. *)
Lemma occurs_in_around (s text before after : string) :
  occurs_in s text -> occurs_in s (before ++ text ++ after)%string.
Proof.
  intros (b & a & ->). exists (before ++ b)%string, (a ++ after)%string.
  now rewrite !str_app_assoc.
Qed.

(** Every part is in the joined text. *)
Lemma occurs_in_join (sep x : string) (parts : list string) :
  In x parts -> occurs_in x (join sep parts).
Proof.
  induction parts as [|p rest IH]; intro H; [destruct H|].
  destruct rest as [|q rest].
  - destruct H as [<- | []]. apply occurs_in_self.
  - change (join sep (p :: q :: rest))
      with (p ++ sep ++ join sep (q :: rest))%string.
    destruct H as [<- | H].
    + apply (occurs_in_here p EmptyString).
    + rewrite <- str_app_assoc, <- (str_app_nil_r (join sep (q :: rest))).
      apply occurs_in_around, IH, H.
Qed.

Section ReprProperties.

Variable builtin_repr : pyval -> string.

(** [str] of a dict shows every item, key and value, whatever the order the
    dict yields them in. *)
Lemma dict_str_shows_item
    (r : pyval -> string) (items : list (string * pyval)) (kv : string * pyval) :
  In kv items -> occurs_in (entry r kv) (dict_str r items).
Proof.
  intro H. unfold dict_str.
  apply occurs_in_around, occurs_in_join, in_map, H.
Qed.

(** An escalation is shown by its own dump. *)
Lemma repr_escalation (e : Escalation) :
  repr builtin_repr (PyEscalation e)
  = dict_str builtin_repr (Escalation_dict e).
Proof. reflexivity. Qed.

(** The attribute dictionary of a constructed task has the eleven names of
    [__init__] and the values given. *)
Lemma Task_dict_constructed
    (title username reason description url : string)
    (performed : bool) (comment : string) (authenticated : bool) (status : Z)
    (given : datetime) (escalation : option Escalation) (t : Task) :
  Task_init title username reason description url performed comment
            authenticated status (Some given) escalation = Ok t ->
  Task_dict t
  = attributes_at_construction title username reason description url
      performed comment authenticated status given escalation.
Proof.
  intro H. apply Task_init_inv in H as (d & Hd & _ & ->).
  injection Hd as <-. reflexivity.
Qed.

End ReprProperties.

(** C9.  The string that [Task.__str__] returns for a constructed task
    shows every attribute set at construction (title, username, reason,
    description, url, performed, comment, authenticated, status, event_time
    and escalation) as [repr(name): repr(value)], in full, with the values
    given to [__init__] and [event_time] localized.  The same holds for the
    dump of the attribute dictionary in any other order [shown] of its
    items. *)
Theorem Task_str_complete
    (builtin_repr : pyval -> string)
    (title username reason description url : string)
    (performed : bool) (comment : string) (authenticated : bool) (status : Z)
    (given : datetime) (escalation : option Escalation) (t : Task) :
  Task_init title username reason description url performed comment
            authenticated status (Some given) escalation = Ok t ->
  Forall (fun kv => occurs_in (entry (repr builtin_repr) kv)
                              (Task_str builtin_repr t))
         (attributes_at_construction title username reason description url
            performed comment authenticated status given escalation) /\
  (forall shown : list (string * pyval),
      Permutation shown (Task_dict t) ->
      Forall (fun kv => occurs_in (entry (repr builtin_repr) kv)
                                  (dict_str (repr builtin_repr) shown))
             (attributes_at_construction title username reason description url
                performed comment authenticated status given escalation)).
Proof.
  intro Hinit.
  rewrite <- (Task_dict_constructed _ _ _ _ _ _ _ _ _ _ _ _ Hinit).
  split.
  - apply Forall_forall. intros kv Hin.
    unfold Task_str. now apply dict_str_shows_item.
  - intros shown Hperm. apply Forall_forall. intros kv Hin.
    apply dict_str_shows_item.
    apply (Permutation_in kv (Permutation_sym Hperm) Hin).
Qed.

Lemma Task_str_complete_witness :
  Forall (fun kv => occurs_in (entry (repr Sample.show) kv)
                              (Task_str Sample.show Sample.alert))
         (attributes_at_construction "Login" "alice" "new device"
            "Login from a new device" "https://alerts.example/1"
            false "" false 0 Sample.new_year_2017 (Some (Sample.bob 300))).
Proof.
  exact (proj1 (Task_str_complete Sample.show "Login" "alice" "new device"
                  "Login from a new device" "https://alerts.example/1"
                  false "" false 0 Sample.new_year_2017
                  (Some (Sample.bob 300)) Sample.alert eq_refl)).
Defined.

(** The dump of the sample task. *)
Example Task_str_sample :
  Task_str Sample.show Sample.alert
  = ("{'title': 'Login', 'username': 'alice', 'reason': 'new device', "
     ++ "'description': 'Login from a new device', "
     ++ "'url': 'https://alerts.example/1', 'performed': False, "
     ++ "'comment': '', 'authenticated': False, 'status': 0, "
     ++ "'event_time': datetime.datetime(2017, 1, 1, 0, 0, tzinfo=<UTC>), "
     ++ "'escalation': {'ldap': 'bob', 'delay_in_sec': 300, "
     ++ "'_notified_at': None}}")%string.
Proof. reflexivity. Qed.

(* ================================================================== *)
(** * Further properties of the module *)

(** ** Escalation: construction with a timestamp *)

Lemma Escalation_init_inv
    (name : string) (delay : Z) (given : option datetime) (e : Escalation) :
  Escalation_init name delay given = Ok e ->
  (given = None /\ e = mkEscalation name delay None) \/
  (exists d : datetime,
      given = Some d /\ tzinfo d = None /\
      e = mkEscalation name delay (Some (replace_tzinfo d (Some UTC)))).
Proof.
  unfold Escalation_init, utc_localize, bind.
  destruct given as [d|].
  - destruct (tzinfo d) eqn:E; [discriminate|].
    intro H. injection H as <-. right. now exists d.
  - intro H. injection H as <-. now left.
Qed.

Lemma Escalation_init_utc
    (name : string) (delay : Z) (given : option datetime) (e : Escalation) :
  Escalation_init name delay given = Ok e -> notified_at_utc e = true.
Proof.
  intro H. apply Escalation_init_inv in H as [[_ ->] | (d & _ & _ & ->)];
    reflexivity.
Qed.

(** An escalation built with a naive [notified_at] starts out notified, and
    [should_notify] answers [False] from the start and after any calls. *)
Theorem Escalation_init_prenotified
    (name : string) (delay : Z) (given : datetime)
    (cs : list call) (elapsed : timedelta) :
  tzinfo given = None ->
  exists e : Escalation,
    Escalation_init name delay (Some given) = Ok e /\
    _notified_at e = Some (replace_tzinfo given (Some UTC)) /\
    is_notified e = true /\
    should_notify (final e cs) elapsed = false.
Proof.
  intro H.
  exists (mkEscalation name delay (Some (replace_tzinfo given (Some UTC)))).
  repeat split.
  - unfold Escalation_init. now rewrite (utc_localize_naive given H).
  - now apply should_notify_notified, final_keeps_notified.
Qed.

Lemma Escalation_init_prenotified_witness :
  exists e : Escalation,
    Escalation_init "bob" 300 (Some Sample.new_year_2017) = Ok e /\
    is_notified e = true /\
    should_notify (final e [CallIsNotified]) Sample.one_day = false.
Proof.
  destruct (Escalation_init_prenotified "bob" 300 Sample.new_year_2017
              [CallIsNotified] Sample.one_day eq_refl)
    as (e & H1 & _ & H3 & H4).
  now exists e.
Defined.

(** A [notified_at] whose [tzinfo] is already set makes the constructor of
    an escalation raise [ValueError]. *)
Theorem Escalation_init_rejects_zoned
    (name : string) (delay : Z) (given : datetime) (z : tz) :
  tzinfo given = Some z ->
  Escalation_init name delay (Some given) = Raise ValueError.
Proof.
  intro H. unfold Escalation_init. now rewrite (utc_localize_zoned given z H).
Qed.

Lemma Escalation_init_rejects_zoned_witness :
  Escalation_init "bob" 300 (Some (now_utc Sample.noon)) = Raise ValueError.
Proof.
  apply (Escalation_init_rejects_zoned "bob" 300 (now_utc Sample.noon) UTC).
  reflexivity.
Defined.

(* ================================================================== *)
(** ** Escalation: what calls change *)

Lemma ldap_final (cs : list call) (e : Escalation) :
  ldap (final e cs) = ldap e.
Proof.
  revert e. induction cs as [|c cs IH]; intro e; [reflexivity|].
  rewrite final_cons, IH. now destruct c.
Qed.

Lemma delay_final (cs : list call) (e : Escalation) :
  delay_in_sec (final e cs) = delay_in_sec e.
Proof.
  revert e. induction cs as [|c cs IH]; intro e; [reflexivity|].
  rewrite final_cons, IH. now destruct c.
Qed.

Lemma notified_at_final (cs : list call) (e : Escalation) :
  _notified_at (final e cs)
  = match last_set cs with
    | Some k => Some (now_utc k)
    | None => _notified_at e
    end.
Proof.
  revert e. induction cs as [|c cs IH]; intro e; [reflexivity|].
  rewrite final_cons, IH. cbn [last_set].
  destruct (last_set cs); [reflexivity|]. now destruct c.
Qed.

Lemma notified_at_utc_final (cs : list call) (e : Escalation) :
  notified_at_utc e = true -> notified_at_utc (final e cs) = true.
Proof.
  unfold notified_at_utc. rewrite notified_at_final.
  now destruct (last_set cs).
Qed.

(** Calls leave [ldap] and [delay_in_sec] alone, and the timestamp is the
    one of the latest [set_notified]: a second [set_notified] overwrites the
    time of the first. *)
Theorem calls_touch_only_the_timestamp (e : Escalation) (cs : list call) :
  final e cs
  = mkEscalation (ldap e) (delay_in_sec e)
      (match last_set cs with
       | Some k => Some (now_utc k)
       | None => _notified_at e
       end).
Proof.
  rewrite <- (ldap_final cs e), <- (delay_final cs e), <- (notified_at_final cs e).
  now destruct (final e cs).
Qed.

(** Whatever the calls, the timestamp of an escalation that the constructor
    returned is unset or a UTC-zoned datetime. *)
Theorem notified_at_stays_utc
    (name : string) (delay : Z) (given : option datetime)
    (e : Escalation) (cs : list call) (d : datetime) :
  Escalation_init name delay given = Ok e ->
  _notified_at (final e cs) = Some d ->
  tzinfo d = Some UTC.
Proof.
  intros Hinit Hd.
  assert (H := notified_at_utc_final cs e (Escalation_init_utc _ _ _ _ Hinit)).
  unfold notified_at_utc in H. rewrite Hd in H.
  destruct (tzinfo d) as [[|]|]; [reflexivity | discriminate | discriminate].
Qed.

Lemma notified_at_stays_utc_witness :
  tzinfo (replace_tzinfo Sample.new_year_2017 (Some UTC)) = Some UTC.
Proof.
  apply (notified_at_stays_utc "bob" 300 (Some Sample.new_year_2017)
           (mkEscalation "bob" 300
              (Some (replace_tzinfo Sample.new_year_2017 (Some UTC))))
           [CallShouldNotify Sample.one_day]
           (replace_tzinfo Sample.new_year_2017 (Some UTC)));
    reflexivity.
Defined.

(** An escalation can be built again from its own attributes as long as it
    is not notified, and the copy equals it; once notified, the constructor
    refuses its timestamp with [ValueError]. *)
Theorem Escalation_rebuild
    (name : string) (delay : Z) (given : option datetime)
    (e0 : Escalation) (cs : list call) :
  Escalation_init name delay given = Ok e0 ->
  Escalation_init (ldap (final e0 cs)) (delay_in_sec (final e0 cs))
                  (_notified_at (final e0 cs))
  = if is_notified (final e0 cs) then Raise ValueError
    else Ok (final e0 cs).
Proof.
  intro Hinit.
  assert (H := notified_at_utc_final cs e0 (Escalation_init_utc _ _ _ _ Hinit)).
  destruct (final e0 cs) as [l dl [d|]];
    unfold notified_at_utc, is_notified in *;
    cbn [ldap delay_in_sec _notified_at] in *; [|reflexivity].
  destruct (tzinfo d) as [z|] eqn:E; [|discriminate].
  unfold Escalation_init. now rewrite (utc_localize_zoned d z E).
Qed.

Lemma Escalation_rebuild_witness :
  Escalation_init "bob" 300 None = Ok (Sample.bob 300) /\
  Escalation_init "bob" 300 (Some (now_utc Sample.noon)) = Raise ValueError.
Proof.
  split.
  - exact (Escalation_rebuild "bob" 300 None (Sample.bob 300)
             [CallShouldNotify Sample.one_day] eq_refl).
  - exact (Escalation_rebuild "bob" 300 None (Sample.bob 300)
             [CallSetNotified Sample.noon] eq_refl).
Defined.

(** The [seconds] attribute stays below 86400, so an escalation whose delay
    is 86399 seconds or more is never due, whatever the elapsed time. *)
Theorem should_notify_never_from_a_day (e : Escalation) (elapsed : timedelta) :
  timedelta_ok elapsed = true ->
  SECONDS_PER_DAY - 1 <= delay_in_sec e ->
  should_notify e elapsed = false.
Proof.
  intros Hok Hd. apply timedelta_ok_bounds in Hok as (_ & Hs & _).
  unfold should_notify.
  replace (seconds elapsed >? delay_in_sec e) with false;
    [apply andb_false_r|].
  symmetry. rewrite Z.gtb_ltb. apply Z.ltb_ge. lia.
Qed.

Lemma should_notify_never_from_a_day_witness :
  should_notify (Sample.bob 86400) (mkTimedelta 2 18000 0) = false.
Proof.
  apply (should_notify_never_from_a_day (Sample.bob 86400)
           (mkTimedelta 2 18000 0) eq_refl).
  cbn. lia.
Defined.

(* ================================================================== *)
(** ** Task: construction, further *)

(** Construction returns a task exactly when [event_time] is a naive
    datetime. *)
Theorem Task_init_succeeds_iff_naive
    (title username reason description url : string)
    (performed : bool) (comment : string) (authenticated : bool) (status : Z)
    (given : option datetime) (escalation : option Escalation) :
  (exists t : Task,
      Task_init title username reason description url performed comment
                authenticated status given escalation = Ok t)
  <->
  (exists d : datetime, given = Some d /\ tzinfo d = None).
Proof.
  split.
  - intros (t & H). apply Task_init_inv in H as (d & Hd & Hz & _).
    now exists d.
  - intros (d & -> & Hz). unfold Task_init.
    rewrite (utc_localize_naive d Hz). cbn [bind]. eexists. reflexivity.
Qed.

(** The [event_time] a task holds is not accepted as the [event_time] of a
    new task: building a task again from the attributes of a constructed one
    raises [ValueError]. *)
Theorem Task_rebuild_raises
    (a_title a_username a_reason a_description a_url : string)
    (a_performed : bool) (a_comment : string) (a_authenticated : bool)
    (a_status : Z) (given : option datetime) (an_escalation : option Escalation)
    (t : Task) :
  Task_init a_title a_username a_reason a_description a_url a_performed
            a_comment a_authenticated a_status given an_escalation = Ok t ->
  Task_init (title t) (username t) (reason t) (description t) (url t)
            (performed t) (comment t) (authenticated t) (status t)
            (event_time t) (escalation t)
  = Raise ValueError.
Proof.
  intro H. apply Task_init_inv in H as (d & _ & _ & ->).
  reflexivity.
Qed.

Lemma Task_rebuild_raises_witness :
  Task_init "Login" "alice" "new device" "Login from a new device"
            "https://alerts.example/1" false "" false 0
            (event_time Sample.alert) (Some (Sample.bob 300))
  = Raise ValueError.
Proof.
  exact (Task_rebuild_raises "Login" "alice" "new device"
           "Login from a new device" "https://alerts.example/1"
           false "" false 0 (Some Sample.new_year_2017)
           (Some (Sample.bob 300)) Sample.alert eq_refl).
Defined.

(** The constructor takes any status.  A task built with a status that is
    none of the three levels is neither open, nor in progress, nor
    verifying. *)
Theorem unknown_status_no_predicate
    (L : StatusLevels)
    (a_title a_username a_reason a_description a_url : string)
    (a_performed : bool) (a_comment : string) (a_authenticated : bool)
    (a_status : Z) (given : datetime) (an_escalation : option Escalation) :
  tzinfo given = None ->
  a_status <> OPEN -> a_status <> INPROGRESS -> a_status <> VERIFICATION ->
  exists t : Task,
    Task_init a_title a_username a_reason a_description a_url a_performed
              a_comment a_authenticated a_status (Some given) an_escalation
    = Ok t /\
    status t = a_status /\
    is_open t = false /\ is_in_progress t = false /\ is_verifying t = false.
Proof.
  intros Hz H1 H2 H3. unfold Task_init. rewrite (utc_localize_naive given Hz).
  cbn [bind]. eexists. split; [reflexivity|].
  unfold is_open, is_in_progress, is_verifying. cbn [status].
  repeat split; apply Z.eqb_neq; assumption.
Qed.

Lemma unknown_status_no_predicate_witness :
  exists t : Task,
    Task_init "Login" "alice" "new device" "Login from a new device"
              "https://alerts.example/1" false "" false 7
              (Some Sample.new_year_2017) None = Ok t /\
    @is_open positional_levels t = false /\
    @is_in_progress positional_levels t = false /\
    @is_verifying positional_levels t = false.
Proof.
  destruct (unknown_status_no_predicate positional_levels
              "Login" "alice" "new device" "Login from a new device"
              "https://alerts.example/1" false "" false 7
              Sample.new_year_2017 None eq_refl
              ltac:(discriminate) ltac:(discriminate) ltac:(discriminate))
    as (t & H0 & _ & H1 & H2 & H3).
  now exists t.
Defined.

(* ================================================================== *)
(** ** String representations, further *)

Lemma occurs_in_trans (a b c : string) :
  occurs_in a b -> occurs_in b c -> occurs_in a c.
Proof.
  intros Hab (before & after & ->). now apply occurs_in_around.
Qed.

(** The string that [Escalation.__repr__] returns for an escalation the
    constructor returned, after any calls of its methods, shows the name and
    the delay given at construction and the current timestamp, each as
    [repr(name): repr(value)]: the timestamp shown is the clock reading of
    the latest [set_notified], else the localized time given at
    construction, else [None]. *)
Theorem Escalation_repr_complete
    (builtin_repr : pyval -> string)
    (name : string) (delay : Z) (given : option datetime)
    (e : Escalation) (cs : list call) :
  Escalation_init name delay given = Ok e ->
  Forall (fun kv => occurs_in (entry builtin_repr kv)
                              (Escalation_repr builtin_repr (final e cs)))
         [ ("ldap"%string, PyStr name);
           ("delay_in_sec"%string, PyInt delay);
           ("_notified_at"%string,
            match last_set cs, given with
            | Some clock, _ => PyDatetime (now_utc clock)
            | None, Some d => PyDatetime (replace_tzinfo d (Some UTC))
            | None, None => PyNone
            end) ].
Proof.
  intro Hinit.
  assert (Hdict :
    Escalation_dict (final e cs)
    = [ ("ldap"%string, PyStr name);
        ("delay_in_sec"%string, PyInt delay);
        ("_notified_at"%string,
         match last_set cs, given with
         | Some clock, _ => PyDatetime (now_utc clock)
         | None, Some d => PyDatetime (replace_tzinfo d (Some UTC))
         | None, None => PyNone
         end) ]).
  { unfold Escalation_dict.
    rewrite ldap_final, delay_final, notified_at_final.
    apply Escalation_init_inv in Hinit
      as [(-> & ->) | (d & -> & _ & ->)];
      cbn [ldap delay_in_sec _notified_at];
      destruct (last_set cs); reflexivity. }
  rewrite <- Hdict. apply Forall_forall. intros kv Hin.
  unfold Escalation_repr. now apply dict_str_shows_item.
Qed.

Lemma Escalation_repr_complete_witness :
  exists e : Escalation,
    Escalation_init "bob" 300 (Some Sample.new_year_2017) = Ok e /\
    Forall (fun kv => occurs_in
                        (entry Sample.show kv)
                        (Escalation_repr Sample.show
                           (final e [CallSetNotified Sample.noon;
                                     CallIsNotified])))
           [ ("ldap"%string, PyStr "bob");
             ("delay_in_sec"%string, PyInt 300);
             ("_notified_at"%string, PyDatetime (now_utc Sample.noon)) ].
Proof.
  exists (mkEscalation "bob" 300
            (Some (replace_tzinfo Sample.new_year_2017 (Some UTC)))).
  split; [reflexivity|].
  apply (Escalation_repr_complete Sample.show "bob" 300
           (Some Sample.new_year_2017) _
           [CallSetNotified Sample.noon; CallIsNotified]).
  reflexivity.
Defined.

(** The dump of a task built with an escalation carries the escalation's
    own dump, and so each attribute of the escalation. *)
Theorem Task_str_shows_escalation
    (builtin_repr : pyval -> string)
    (title username reason description url : string)
    (performed : bool) (comment : string) (authenticated : bool) (status : Z)
    (given : datetime) (e : Escalation) (t : Task) :
  Task_init title username reason description url performed comment
            authenticated status (Some given) (Some e) = Ok t ->
  occurs_in (Escalation_repr builtin_repr e) (Task_str builtin_repr t) /\
  Forall (fun kv => occurs_in (entry builtin_repr kv)
                              (Task_str builtin_repr t))
         (Escalation_dict e).
Proof.
  intro Hinit.
  assert (Hin : In ("escalation"%string, PyEscalation e) (Task_dict t)).
  { rewrite (Task_dict_constructed _ _ _ _ _ _ _ _ _ _ _ _ Hinit).
    unfold attributes_at_construction. cbn [of_escalation].
    do 10 right. now left. }
  assert (Hrepr : occurs_in (Escalation_repr builtin_repr e)
                            (Task_str builtin_repr t)).
  { apply (occurs_in_trans _
             (entry (repr builtin_repr) ("escalation"%string, PyEscalation e))).
    - unfold entry. cbn [fst snd repr].
      rewrite <- (str_app_nil_r (Escalation_repr builtin_repr e)) at 2.
      rewrite <- str_app_assoc. apply occurs_in_here.
    - now apply dict_str_shows_item. }
  split; [exact Hrepr|].
  apply Forall_forall. intros kv Hkv.
  apply (occurs_in_trans _ (Escalation_repr builtin_repr e)); [|exact Hrepr].
  now apply dict_str_shows_item.
Qed.

Lemma Task_str_shows_escalation_witness :
  occurs_in (Escalation_repr Sample.show (Sample.bob 300))
            (Task_str Sample.show Sample.alert) /\
  Forall (fun kv => occurs_in (entry Sample.show kv)
                              (Task_str Sample.show Sample.alert))
         (Escalation_dict (Sample.bob 300)).
Proof.
  exact (Task_str_shows_escalation Sample.show "Login" "alice" "new device"
           "Login from a new device" "https://alerts.example/1"
           false "" false 0 Sample.new_year_2017 (Sample.bob 300)
           Sample.alert eq_refl).
Defined.

(* ================================================================== *)
(** ** Escalation: granularity of the rule *)

(** Microseconds do not count: an elapsed time built with up to 999999
    microseconds more gets the same answer, so at [delay_in_sec] seconds and
    a fraction the escalation is not yet due. *)
Theorem should_notify_ignores_microseconds
    (e : Escalation) (d s us : Z) (whole with_fraction : timedelta) :
  0 <= us < US_PER_SECOND ->
  timedelta_new d s 0 = Ok whole ->
  timedelta_new d s us = Ok with_fraction ->
  should_notify e with_fraction = should_notify e whole.
Proof.
  intros Hus. unfold timedelta_new.
  rewrite (Z.div_small us), (Z.mod_small us) by exact Hus.
  change (0 / US_PER_SECOND) with 0. change (0 mod US_PER_SECOND) with 0.
  destruct (Z.abs _ >? MAX_DELTA_DAYS); [discriminate|].
  intros H1 H2. injection H1 as <-. injection H2 as <-.
  reflexivity.
Qed.

Lemma should_notify_ignores_microseconds_witness :
  should_notify (Sample.bob 10) (mkTimedelta 0 10 999999) = false.
Proof.
  rewrite (should_notify_ignores_microseconds (Sample.bob 10) 0 10 999999
             Sample.ten_seconds (mkTimedelta 0 10 999999)
             ltac:(unfold US_PER_SECOND; lia) eq_refl eq_refl).
  reflexivity.
Defined.
